(** * InputFile: sources of file data and their single-use byte streams

    A shallow embedding of [src/core/input_file.ts]: the normaliser
    [preprocess], the constructor with [guessFilename], the async generator
    behind [Symbol.asyncIterator], [ResponseError], [readFile] and
    [fetchFile].

    JavaScript values are modelled by the shapes the constructor's parameter
    type admits: plain objects with any of the fields [path], [url],
    [readable] and [base64], the host's classes, and async iterables with
    the properties a Node stream adds ([path], [readable]).  A boolean is a
    value too, because that is what [data.readable] is on a Node stream.
    Every [in], [typeof] and [instanceof] test of the source is a function
    on those shapes.  What the host provides (the URL parser, the
    file system, [fetch], user callbacks and the streams they hand out) is a
    [Platform] record of oracles that answer from the history of events so
    far. *)

From Stdlib Require Import String Ascii List ZArith Bool Lia.
Import ListNotations.
Local Open Scope string_scope.
Local Open Scope list_scope.

(** ** Host values *)

(** A [Uint8Array]: the bytes it holds. *)
Definition Uint8Array : Type := list Byte.byte.

(** A [URL] object, by the components the code reads.  [protocol] is the
    getter of the URL standard: the scheme followed by a colon. *)
Module URL.
Record t : Type := mk {
  href : string;
  scheme : string;
  hostname : string;
  pathname : string
}.
Definition protocol (u : t) : string := scheme u ++ ":".
End URL.

(** An [AsyncIterable<Uint8Array>] handed in by the caller or produced by the
    host.  [path] is its [path] property when that is a string (as on a
    Node [fs.ReadStream]); [readable] is its [readable] property, the
    boolean accessor every Node [stream.Readable] inherits (a web
    [ReadableStream] has none). *)
Module AsyncIterable.
Record t : Type := mk {
  id : nat;
  path : option string;
  readable : option bool
}.
End AsyncIterable.

(** A plain object literal, by the four fields the code looks for.  The
    members [{ path }], [{ url }], [{ readable }] and [{ base64 }] of the
    parameter type have one field each; an object literal may carry several. *)
Module PlainObject.
Record t : Type := mk {
  path : option string;
  url : option string;
  readable : option AsyncIterable.t;
  base64 : option string
}.
End PlainObject.

(** A [Blob]; it is a [File] exactly when it has a [name]. *)
Module Blob.
Record t : Type := mk {
  id : nat;
  name : option string
}.
End Blob.

(** A [Response].  [body] is [None] for JavaScript's [null]. *)
Module Response.
Record t : Type := mk {
  status : Z;
  statusText : string;
  ok : bool;
  body : option AsyncIterable.t;
  url : string
}.
End Response.

(** A zero-argument function [() => MaybePromise<AsyncIterable<Uint8Array>>],
    by identity. *)
Definition Producer : Type := nat.

(** The values the code handles: the constructor's parameter [file], and
    [fileData] after [preprocess]. *)
Inductive Value : Type :=
| VObject (o : PlainObject.t)              (* { path?, url?, readable?, base64? } *)
| VURL (u : URL.t)                         (* URL *)
| VBlob (b : Blob.t)                       (* Blob, File *)
| VResponse (r : Response.t)               (* Response *)
| VBytes (b : Uint8Array)                  (* Uint8Array *)
| VIterable (it : AsyncIterable.t)         (* AsyncIterable<Uint8Array> *)
| VFunction (f : Producer)                 (* () => MaybePromise<...> *)
| VBoolean (b : bool).                     (* true, false *)

(** The four one-field members of the parameter type. *)

(** [{ path }] *)
Definition VPath (path : string) : Value :=
  VObject {| PlainObject.path := Some path; PlainObject.url := None;
             PlainObject.readable := None; PlainObject.base64 := None |}.

(** [{ url }] *)
Definition VUrl (url : string) : Value :=
  VObject {| PlainObject.path := None; PlainObject.url := Some url;
             PlainObject.readable := None; PlainObject.base64 := None |}.

(** [{ readable }] *)
Definition VReadable (readable : AsyncIterable.t) : Value :=
  VObject {| PlainObject.path := None; PlainObject.url := None;
             PlainObject.readable := Some readable;
             PlainObject.base64 := None |}.

(** [{ base64 }] *)
Definition VBase64 (base64 : string) : Value :=
  VObject {| PlainObject.path := None; PlainObject.url := None;
             PlainObject.readable := None; PlainObject.base64 := Some base64 |}.

(** What a [throw] or a rejected promise carries. *)
Inductive Thrown : Type :=
| TypeError (message : string)
| ResponseError (message : string) (error_code : Z) (response : Response.t)
| HostError (reason : string).

Definition Completion (A : Type) : Type := (Thrown + A)%type.

Definition and_then {A B : Type} (c : Completion A) (k : A -> Completion B)
  : Completion B :=
  match c with
  | inl e => inl e
  | inr a => k a
  end.

Notation "'let?' x ':=' c 'in' k" := (and_then c (fun x => k))
  (at level 10, x name, c at level 100, k at level 200).

(** A string is truthy when it is not empty. *)
Definition truthy (s : string) : bool := negb (s =? "").

(** ** Shape tests

    The [in] operator throws a [TypeError] when its right operand is not an
    object; [in_operator] is that check, made where a function first applies
    [in] to a value.  Each test below returns the value the source reads
    after the test succeeds, or [None] when the test fails. *)

Definition in_operator (key : string) (operand : Value) : Completion unit :=
  match operand with
  | VBoolean b =>
      inl (TypeError ("Cannot use 'in' operator to search for '" ++ key ++
                      "' in " ++ (if b then "true" else "false")))
  | _ => inr tt
  end.

(** ["base64" in data], giving [data.base64] *)
Definition prop_base64 (data : Value) : option string :=
  match data with VObject o => PlainObject.base64 o | _ => None end.

(** ["readable" in data], giving [data.readable]: the field of a plain
    object, the boolean accessor of a Node stream. *)
Definition prop_readable (data : Value) : option Value :=
  match data with
  | VObject o => option_map VIterable (PlainObject.readable o)
  | VIterable it => option_map VBoolean (AsyncIterable.readable it)
  | _ => None
  end.

(** [data instanceof Response] *)
Definition instanceof_Response (data : Value) : option Response.t :=
  match data with VResponse r => Some r | _ => None end.

(** ["url" in data]: own property of [{ url }], getter of a [Response]. *)
Definition prop_url (data : Value) : option string :=
  match data with
  | VObject o => PlainObject.url o
  | VResponse r => Some (Response.url r)
  | _ => None
  end.

(** ["path" in file && typeof file.path === "string"] *)
Definition prop_path_string (file : Value) : option string :=
  match file with
  | VObject o => PlainObject.path o
  | VIterable it => AsyncIterable.path it
  | _ => None
  end.

(** [file instanceof File], giving [file.name] *)
Definition instanceof_File (file : Value) : option string :=
  match file with VBlob b => Blob.name b | _ => None end.

(** [file instanceof URL] *)
Definition instanceof_URL (file : Value) : option URL.t :=
  match file with VURL u => Some u | _ => None end.

(** [typeof data === "function"] *)
Definition typeof_function (data : Value) : option Producer :=
  match data with VFunction f => Some f | _ => None end.

(** [data instanceof Uint8Array] *)
Definition instanceof_Uint8Array (data : Value) : option Uint8Array :=
  match data with VBytes b => Some b | _ => None end.

(** ["stream" in data] *)
Definition prop_stream (data : Value) : option Blob.t :=
  match data with VBlob b => Some b | _ => None end.

(** [Symbol.asyncIterator in data] *)
Definition prop_asyncIterator (data : Value) : option AsyncIterable.t :=
  match data with VIterable it => Some it | _ => None end.

(** ["path" in data], giving [data.path] for the call of [readFile] *)
Definition prop_path (data : Value) : option string :=
  match data with
  | VObject o => PlainObject.path o
  | VIterable it => AsyncIterable.path it
  | _ => None
  end.

(** ** [basename] of [node:path] (POSIX flavour, no suffix argument)

    The library scans the path from its last character: separators at the
    very end are skipped, then characters are kept up to the next separator.
    [scan] runs over the reversed path; [matchedSlash] is the library's flag
    of the same name and [kept] the slice collected so far. *)

Definition is_slash (c : ascii) : bool := Ascii.eqb c "/"%char.

Fixpoint scan (rev_path : list ascii) (matchedSlash : bool) (kept : list ascii)
  : list ascii :=
  match rev_path with
  | [] => kept
  | c :: rest =>
      if is_slash c
      then (if matchedSlash then scan rest true kept else kept)
      else scan rest false (c :: kept)
  end.

Definition basename (path : string) : string :=
  string_of_list_ascii (scan (rev (list_ascii_of_string path)) true []).

(** ** Events and the host platform *)

Inductive Event : Type :=
| EvCall (f : Producer)                 (* data() *)
| EvStream (b : Blob.t)                 (* data.stream() *)
| EvDenoOpen (path : string)            (* Deno.open(path) *)
| EvCreateReadStream (path : string)    (* fs.createReadStream(path) *)
| EvFetch (u : URL.t)                   (* fetch(url) *)
| EvIterate (it : AsyncIterable.t).     (* yield* it *)

(** The host.  [new_URL] is the pure [URL] constructor (it throws on a string
    it cannot parse).  Every other field is an oracle: given the events that
    happened before, it tells what the call returns or throws.  [iterate]
    tells which chunks an iterable delivers when drained and whether the
    iteration ends normally ([None]) or throws. *)
Record Platform : Type := {
  isDeno : bool;
  new_URL : string -> Completion URL.t;
  Object_toString : Value -> string;
  call : list Event -> Producer -> Completion AsyncIterable.t;
  Blob_stream : list Event -> Blob.t -> Completion AsyncIterable.t;
  Deno_open : list Event -> string -> Completion AsyncIterable.t;
  createReadStream : list Event -> string -> Completion AsyncIterable.t;
  fetch : list Event -> URL.t -> Completion Response.t;
  iterate : list Event -> AsyncIterable.t -> list Uint8Array * option Thrown
}.

(** ** The class [InputFile] *)

Record InputFile : Type := {
  consumed : bool;
  fileData : Value;
  name : option string
}.

Section Construction.

Variable P : Platform.

(** [preprocess], lines 26-32. *)
Definition preprocess (data : Value) : Completion Value :=
  let? _ := in_operator "base64" data in
  match prop_base64 data with
  | Some base64 =>
      let? u := new_URL P ("data:;base64," ++ base64) in inr (VURL u)
  | None =>
  match prop_readable data with
  | Some readable => inr readable
  | None =>
  match instanceof_Response data with
  | Some _ => inr data
  | None =>
  match prop_url data with
  | Some url => let? u := new_URL P url in inr (VURL u)
  | None => inr data
  end end end end.

(** [guessFilename], lines 76-89. *)
Definition guessFilename (fileData : Value) : Completion (option string) :=
  let file := fileData in
  let? _ := in_operator "path" file in
  match prop_path_string file with
  | Some path => inr (Some (basename path))
  | None =>
  let? file := match prop_url file with
               | Some url =>
                   if truthy url
                   then let? u := new_URL P url in inr (VURL u)
                   else inr file
               | None => inr file
               end in
  match instanceof_File file with
  | Some file_name => inr (Some file_name)
  | None =>
  match instanceof_URL file with
  | None => inr None
  | Some file =>
      let by_hostname := inr (Some (basename (URL.hostname file))) in
      if negb (URL.pathname file =? "/")
      then let filename := basename (URL.pathname file) in
           if truthy filename then inr (Some filename) else by_hostname
      else by_hostname
  end end end.

(** The constructor, lines 58-74: [filename ?? this.guessFilename()]. *)
Definition new_InputFile (file : Value) (filename : option string)
  : Completion InputFile :=
  let? fileData := preprocess file in
  let? name := match filename with
               | Some given => inr (Some given)
               | None => guessFilename fileData
               end in
  inr {| consumed := false; fileData := fileData; name := name |}.

End Construction.

(** ** The generator monad

    One run of the body of an async generator method: it starts from the
    instance ([this]) and the history of events, and ends with the instance
    as it left it, the events it caused, the chunks it yielded to a consumer
    that iterates to the end, and how it completed. *)

Record Run (A : Type) : Type := {
  this_after : InputFile;
  emitted : list Event;
  yielded : list Uint8Array;
  completion : Completion A
}.
Arguments this_after {A} _.
Arguments emitted {A} _.
Arguments yielded {A} _.
Arguments completion {A} _.

Definition Gen (A : Type) : Type := InputFile -> list Event -> Run A.

Definition ret {A : Type} (a : A) : Gen A :=
  fun this _ =>
    {| this_after := this; emitted := []; yielded := []; completion := inr a |}.

Definition throw {A : Type} (e : Thrown) : Gen A :=
  fun this _ =>
    {| this_after := this; emitted := []; yielded := []; completion := inl e |}.

Definition bind {A B : Type} (m : Gen A) (k : A -> Gen B) : Gen B :=
  fun this h =>
    let r1 := m this h in
    match completion r1 with
    | inl e =>
        {| this_after := this_after r1; emitted := emitted r1;
           yielded := yielded r1; completion := inl e |}
    | inr a =>
        let r2 := k a (this_after r1) (h ++ emitted r1) in
        {| this_after := this_after r2; emitted := emitted r1 ++ emitted r2;
           yielded := yielded r1 ++ yielded r2; completion := completion r2 |}
    end.

Notation "'let*' x ':=' m 'in' k" := (bind m (fun x => k))
  (at level 10, x name, m at level 100, k at level 200).
Notation "m ';;' k" := (bind m (fun _ => k))
  (at level 100, k at level 200, right associativity).

(** A step that only computes: it returns or throws. *)
Definition lift {A : Type} (c : Completion A) : Gen A :=
  fun this _ =>
    {| this_after := this; emitted := []; yielded := []; completion := c |}.

(** [this.fileData] and [this.consumed] *)
Definition this_fileData : Gen Value :=
  fun this _ =>
    {| this_after := this; emitted := []; yielded := [];
       completion := inr (fileData this) |}.

Definition this_consumed : Gen bool :=
  fun this _ =>
    {| this_after := this; emitted := []; yielded := [];
       completion := inr (consumed this) |}.

(** [this.consumed = true]; [fileData] and [name] are read-only. *)
Definition mark_consumed (this : InputFile) : InputFile :=
  {| consumed := true; fileData := fileData this; name := name this |}.

Definition set_consumed : Gen unit :=
  fun this _ =>
    {| this_after := mark_consumed this;
       emitted := []; yielded := []; completion := inr tt |}.

(** [yield chunk] *)
Definition yield (chunk : Uint8Array) : Gen unit :=
  fun this _ =>
    {| this_after := this; emitted := []; yielded := [chunk];
       completion := inr tt |}.

(** A call into the host: the event is recorded and the oracle answers from
    the history before it. *)
Definition host {A : Type} (ev : Event) (oracle : list Event -> Completion A)
  : Gen A :=
  fun this h =>
    {| this_after := this; emitted := [ev]; yielded := [];
       completion := oracle h |}.

(** [new ResponseError(response)], lines 123-132. *)
Definition new_ResponseError (response : Response.t) : Thrown :=
  let message := match Response.body response with
                 | Some _ => Response.statusText response
                 | None => "No response body"
                 end in
  let message := if truthy (Response.url response)
                 then (message ++ " from " ++ Response.url response)%string
                 else message in
  ResponseError message (Response.status response) response.

(** How a drained iterable ends, as the completion of [yield*]. *)
Definition drained (end_of : option Thrown) : Completion unit :=
  match end_of with
  | Some e => inl e
  | None => inr tt
  end.

Section Reading.

Variable P : Platform.

(** [yield* it]: every chunk of [it] is passed on; an exception of the
    iteration propagates. *)
Definition yield_star (it : AsyncIterable.t) : Gen unit :=
  fun this h =>
    {| this_after := this; emitted := [EvIterate it];
       yielded := fst (iterate P h it);
       completion := drained (snd (iterate P h it)) |}.

(** [assertNever], lines 134-137. *)
Definition assertNever (data : Value) : Thrown :=
  TypeError ("Unexpected " ++ Object_toString P data ++ "!")%string.

(** [readFile], lines 139-146. *)
Definition readFile (path : string) : Gen AsyncIterable.t :=
  if isDeno P
  then host (EvDenoOpen path) (fun h => Deno_open P h path)
  else host (EvCreateReadStream path) (fun h => createReadStream P h path).

(** [fetchFile], lines 148-157. *)
Definition fetchFile (url : URL.t) : Gen AsyncIterable.t :=
  if URL.protocol url =? "file" then readFile (URL.pathname url)
  else
    let* response := host (EvFetch url) (fun h => fetch P h url) in
    match Response.ok response, Response.body response with
    | true, Some body => ret body
    | _, _ => throw (new_ResponseError response)
    end.

(** [InputFile[Symbol.asyncIterator]], lines 95-120. *)
Definition asyncIterator : Gen unit :=
  let* data := this_fileData in
  let* was_consumed := this_consumed in
  if was_consumed
  then throw (TypeError "Cannot reuse InputFile data source!")
  else
  match typeof_function data with
  | Some f =>
      let* it := host (EvCall f) (fun h => call P h f) in yield_star it
  | None =>
  match instanceof_Uint8Array data with
  | Some bytes => yield bytes
  | None =>
  let* _ := lift (in_operator "stream" data) in
  match prop_stream data with
  | Some blob =>
      let* it := host (EvStream blob) (fun h => Blob_stream P h blob) in
      yield_star it
  | None =>
  match prop_asyncIterator data with
  | Some it => set_consumed ;; yield_star it
  | None =>
  match prop_path data with
  | Some path => let* it := readFile path in yield_star it
  | None =>
  match instanceof_Response data with
  | Some response =>
      match Response.body response with
      | None => throw (new_ResponseError response)
      | Some body => set_consumed ;; yield_star body
      end
  | None =>
  match instanceof_URL data with
  | Some url => let* it := fetchFile url in yield_star it
  | None => throw (assertNever data)
  end end end end end end end.

(** Reading an instance [n] times in a row, each read drained to its end:
    the runs, oldest first, and the instance and history left behind. *)
Fixpoint read_times (n : nat) (this : InputFile) (h : list Event)
  : list (Run unit) * InputFile * list Event :=
  match n with
  | O => ([], this, h)
  | S n' =>
      let r := asyncIterator this h in
      let '(rs, this', h') := read_times n' (this_after r) (h ++ emitted r) in
      (r :: rs, this', h')
  end.

End Reading.

(** [path] contains a separator. *)
Definition has_slash (path : string) : bool :=
  existsb is_slash (list_ascii_of_string path).

Definition is_some {A : Type} (o : option A) : bool :=
  match o with Some _ => true | None => false end.




(** The message of the guard at the head of the generator. *)
Definition reuse_message : string := "Cannot reuse InputFile data source!".

(** The shapes of [fileData] whose read sets [consumed]: those the test
    [Symbol.asyncIterator in data] or [data instanceof Response] selects. *)
Definition single_use (data : Value) : bool :=
  match data with
  | VIterable _ | VResponse _ => true
  | _ => false
  end.

(** The constructor arguments that are bytes, a local path, a URL (given as
    an object or as [{ url }]), a base64 payload or a producer function.
    Among object literals these are the ones in which [preprocess] finds a
    [base64] field or no [readable] field. *)
Definition rereadable_source (file : Value) : bool :=
  match file with
  | VBytes _ | VURL _ | VFunction _ => true
  | VObject o =>
      is_some (PlainObject.base64 o) || negb (is_some (PlainObject.readable o))
  | _ => false
  end.

(** The instance left by [read_times]. *)
Definition instance_after {A B : Type} (r : A * InputFile * B) : InputFile :=
  snd (fst r).

(** ** A sample host

    A small host on which the statements below are exercised: a parser for
    [data:] URLs and for URLs of the form [scheme://host/path] (the path
    ends at the first [?] or [#]), streams that deliver one chunk, and a
    server that answers 404. *)
Module Sample.

(** The path of a URL ends where its query or fragment begins. *)
Fixpoint before_query (s : string) : string :=
  match s with
  | EmptyString => EmptyString
  | String c rest =>
      if Ascii.eqb c "?" || Ascii.eqb c "#"
      then EmptyString
      else String c (before_query rest)
  end.

Definition parse (s : string) : Completion URL.t :=
  if prefix "data:" s
  then inr {| URL.href := s; URL.scheme := "data"; URL.hostname := "";
              URL.pathname :=
                before_query (substring 5 (String.length s - 5) s) |}
  else
    match index 0 "://" s with
    | None => inl (TypeError "Invalid URL")
    | Some i =>
        let rest := substring (i + 3) (String.length s - (i + 3)) s in
        match index 0 "/" rest with
        | Some j =>
            inr {| URL.href := s; URL.scheme := substring 0 i s;
                   URL.hostname := substring 0 j rest;
                   URL.pathname :=
                     before_query (substring j (String.length rest - j) rest) |}
        | None =>
            inr {| URL.href := s ++ "/"; URL.scheme := substring 0 i s;
                   URL.hostname := rest; URL.pathname := "/" |}
        end
    end.

(** A web [ReadableStream]. *)
Definition stream (n : nat) : AsyncIterable.t :=
  {| AsyncIterable.id := n; AsyncIterable.path := None;
     AsyncIterable.readable := None |}.

(** A Node [fs.ReadStream] opened on [p]. *)
Definition read_stream (n : nat) (p : string) : AsyncIterable.t :=
  {| AsyncIterable.id := n; AsyncIterable.path := Some p;
     AsyncIterable.readable := Some true |}.

Definition chunk : Uint8Array := [Byte.x68; Byte.x69].

Definition not_found (u : URL.t) : Response.t :=
  {| Response.status := 404; Response.statusText := "Not Found";
     Response.ok := false; Response.body := Some (stream 7);
     Response.url := URL.href u |}.

Definition platform : Platform :=
  {| isDeno := true;
     new_URL := parse;
     Object_toString := fun _ => "[object Object]";
     call := fun h f => inr (stream (f + List.length h));
     Blob_stream := fun _ b => inr (stream (Blob.id b));
     Deno_open := fun _ _ => inr (stream 0);
     createReadStream := fun _ p => inr (read_stream 0 p);
     fetch := fun _ u => inr (not_found u);
     iterate := fun _ _ => ([chunk], None) |}.


Definition file_tmp : URL.t :=
  {| URL.href := "file:///tmp/a.txt"; URL.scheme := "file";
     URL.hostname := ""; URL.pathname := "/tmp/a.txt" |}.

Definition empty_response : Response.t :=
  {| Response.status := 204; Response.statusText := "No Content";
     Response.ok := true; Response.body := None;
     Response.url := "https://example.com/none" |}.

Definition photo_response : Response.t :=
  {| Response.status := 200; Response.statusText := "OK";
     Response.ok := true; Response.body := Some (stream 3);
     Response.url := "https://example.com/cat/photo.png" |}.

(** An object literal with three of the fields at once. *)
Definition mixed_object : PlainObject.t :=
  {| PlainObject.path := None;
     PlainObject.url := Some "https://example.com/";
     PlainObject.readable := Some (stream 1);
     PlainObject.base64 := Some "QUJD" |}.

(** The same without the [base64] field. *)
Definition stream_and_url : PlainObject.t :=
  {| PlainObject.path := None;
     PlainObject.url := Some "https://example.com/";
     PlainObject.readable := Some (stream 1);
     PlainObject.base64 := None |}.

Definition log_stream : AsyncIterable.t :=
  read_stream 2 "/var/log/app/today.log".

End Sample.

(** The [message] property of what was thrown. *)
Definition message_of (e : Thrown) : string :=
  match e with
  | TypeError message => message
  | ResponseError message _ _ => message
  | HostError reason => reason
  end.

(** The run of a read that stops at the guard. *)
Definition refused (this : InputFile) : Run unit :=
  {| this_after := this; emitted := []; yielded := [];
     completion := inl (TypeError "Cannot reuse InputFile data source!") |}.

(** The runs, the instance and the history of [read_times]. *)
Definition runs_of {A B C : Type} (r : A * B * C) : A := fst (fst r).
Definition history_after {A B C : Type} (r : A * B * C) : C := snd r.

(** ** A second sample host

    A Node host with an unreliable network: the producer function fails on
    its first call, the stream with id 13 breaks after one chunk, and the
    server answers 200 with a body. *)
Module Flaky.

Definition listing (u : URL.t) : Response.t :=
  {| Response.status := 200; Response.statusText := "OK";
     Response.ok := true; Response.body := Some (Sample.stream 9);
     Response.url := URL.href u |}.

Definition platform : Platform :=
  {| isDeno := false;
     new_URL := Sample.parse;
     Object_toString := fun _ => "[object Object]";
     call := fun h f =>
       match h with
       | [] => inl (HostError "not ready")
       | _ :: _ => inr (Sample.stream f)
       end;
     Blob_stream := fun _ b => inr (Sample.stream (Blob.id b));
     Deno_open := fun _ _ => inl (HostError "Deno is not defined");
     createReadStream := fun _ p => inr (Sample.read_stream 2 p);
     fetch := fun _ u => inr (listing u);
     iterate := fun _ it =>
       if Nat.eqb (AsyncIterable.id it) 13
       then ([Sample.chunk], Some (HostError "connection reset"))
       else ([Sample.chunk; Sample.chunk], None) |}.

End Flaky.

(** * Properties *)

(** ** [basename] *)

Example basename_report : basename "a/b/report.csv" = "report.csv".
Proof. reflexivity. Qed.

Example basename_trailing : basename "/data/" = "data".
Proof. reflexivity. Qed.

Example basename_root : basename "/" = "".
Proof. reflexivity. Qed.

Example sample_parse_example :
  Sample.parse "https://example.com/" =
    inr {| URL.href := "https://example.com/"; URL.scheme := "https";
           URL.hostname := "example.com"; URL.pathname := "/" |}.
Proof. reflexivity. Qed.

Example sample_parse_data :
  Sample.parse "data:;base64,QUJD" =
    inr {| URL.href := "data:;base64,QUJD"; URL.scheme := "data";
           URL.hostname := ""; URL.pathname := ";base64,QUJD" |}.
Proof. reflexivity. Qed.

Example sample_parse_garbage : Sample.parse "not a url" = inl (TypeError "Invalid URL").
Proof. reflexivity. Qed.

Lemma scan_no_slash (l kept : list ascii) (m : bool) :
  existsb is_slash l = false -> scan l m kept = rev l ++ kept.
Proof.
  revert m kept.
  induction l as [|c l IH]; intros m kept H; simpl in *.
  - reflexivity.
  - apply orb_false_elim in H. destruct H as [Hc Hl].
    rewrite Hc, IH by exact Hl.
    rewrite <- app_assoc. reflexivity.
Qed.

Lemma existsb_rev {A : Type} (f : A -> bool) (l : list A) :
  existsb f (rev l) = existsb f l.
Proof.
  induction l as [|a l IH]; simpl.
  - reflexivity.
  - rewrite existsb_app, IH. simpl. rewrite orb_false_r. apply orb_comm.
Qed.

Lemma basename_no_slash (path : string) :
  has_slash path = false -> basename path = path.
Proof.
  unfold has_slash, basename. intros H.
  rewrite scan_no_slash by (rewrite existsb_rev; exact H).
  rewrite rev_involutive, app_nil_r.
  apply string_of_list_ascii_of_string.
Qed.

Lemma list_ascii_of_string_app (a b : string) :
  list_ascii_of_string (a ++ b) = list_ascii_of_string a ++ list_ascii_of_string b.
Proof.
  induction a as [|c a IH]; simpl.
  - reflexivity.
  - rewrite IH. reflexivity.
Qed.

Lemma has_slash_app (a b : string) :
  has_slash (a ++ b) = has_slash a || has_slash b.
Proof.
  unfold has_slash. rewrite list_ascii_of_string_app. apply existsb_app.
Qed.

Lemma truthy_true (s : string) : s <> "" -> truthy s = true.
Proof.
  intros H. unfold truthy. destruct (String.eqb_spec s ""); [contradiction|reflexivity].
Qed.

(** ** The normaliser *)

Lemma preprocess_shapes (P : Platform) :
  (forall p, preprocess P (VPath p) = inr (VPath p)) /\
  (forall s, preprocess P (VUrl s) = let? u := new_URL P s in inr (VURL u)) /\
  (forall u, preprocess P (VURL u) = inr (VURL u)) /\
  (forall b, preprocess P (VBlob b) = inr (VBlob b)) /\
  (forall r, preprocess P (VResponse r) = inr (VResponse r)) /\
  (forall b, preprocess P (VBytes b) = inr (VBytes b)) /\
  (forall it, preprocess P (VIterable it) =
              inr (match AsyncIterable.readable it with
                   | Some b => VBoolean b
                   | None => VIterable it
                   end)) /\
  (forall f, preprocess P (VFunction f) = inr (VFunction f)) /\
  (forall it, preprocess P (VReadable it) = inr (VIterable it)) /\
  (forall s, preprocess P (VBase64 s) =
             let? u := new_URL P ("data:;base64," ++ s) in inr (VURL u)).
Proof.
  repeat apply conj; try reflexivity.
  intros it. unfold preprocess. cbn.
  destruct (AsyncIterable.readable it); reflexivity.
Qed.

(** [preprocess] on an object literal, field by field. *)
Lemma preprocess_object (P : Platform) (o : PlainObject.t) :
  preprocess P (VObject o) =
    match PlainObject.base64 o with
    | Some b => let? u := new_URL P ("data:;base64," ++ b) in inr (VURL u)
    | None =>
        match PlainObject.readable o with
        | Some r => inr (VIterable r)
        | None =>
            match PlainObject.url o with
            | Some s => let? u := new_URL P s in inr (VURL u)
            | None => inr (VObject o)
            end
        end
    end.
Proof.
  unfold preprocess. cbn.
  destruct (PlainObject.base64 o); [reflexivity|].
  destruct (PlainObject.readable o); [reflexivity|].
  destruct (PlainObject.url o); reflexivity.
Qed.


(** C8. [preprocess] tests its argument in a fixed order and the first test
    that succeeds decides.  In terms of the tests: a [base64] property gives
    the URL [data:;base64,<value>]; otherwise a [readable] property gives
    that property's value; otherwise a [Response] is returned as it is,
    although it has a [url] property; otherwise a [url] property gives the
    URL parsed from it; otherwise the argument is returned unchanged.  In
    terms of the arguments: an object literal with several of the fields is
    decided by [base64] before [readable] before [url], and with none of
    them it passes through; a stream with a [readable] property of its own
    (a Node stream) is replaced by that boolean, any other iterable passes
    through; a [Response], a URL, a [Blob], bytes and a function pass
    through.  The result depends on the host only through the URL parser:
    none of the I/O oracles is consulted, and being a plain function it
    records no event and touches no instance. *)
Theorem preprocess_first_match_wins :
  forall (P : Platform),
    (forall data b, prop_base64 data = Some b ->
       preprocess P data =
         let? u := new_URL P ("data:;base64," ++ b) in inr (VURL u)) /\
    (forall data v, prop_base64 data = None -> prop_readable data = Some v ->
       preprocess P data = inr v) /\
    (forall data r, prop_base64 data = None -> prop_readable data = None ->
       instanceof_Response data = Some r ->
       preprocess P data = inr data) /\
    (forall data s, prop_base64 data = None -> prop_readable data = None ->
       instanceof_Response data = None -> prop_url data = Some s ->
       preprocess P data = let? u := new_URL P s in inr (VURL u)) /\
    (forall data, in_operator "base64" data = inr tt ->
       prop_base64 data = None -> prop_readable data = None ->
       instanceof_Response data = None -> prop_url data = None ->
       preprocess P data = inr data) /\
    (forall o b, PlainObject.base64 o = Some b ->
       preprocess P (VObject o) =
         let? u := new_URL P ("data:;base64," ++ b) in inr (VURL u)) /\
    (forall o r, PlainObject.base64 o = None ->
       PlainObject.readable o = Some r ->
       preprocess P (VObject o) = inr (VIterable r)) /\
    (forall o s, PlainObject.base64 o = None ->
       PlainObject.readable o = None -> PlainObject.url o = Some s ->
       preprocess P (VObject o) = let? u := new_URL P s in inr (VURL u)) /\
    (forall o, PlainObject.base64 o = None ->
       PlainObject.readable o = None -> PlainObject.url o = None ->
       preprocess P (VObject o) = inr (VObject o)) /\
    (forall it b, AsyncIterable.readable it = Some b ->
       preprocess P (VIterable it) = inr (VBoolean b)) /\
    (forall it, AsyncIterable.readable it = None ->
       preprocess P (VIterable it) = inr (VIterable it)) /\
    (forall r, prop_url (VResponse r) = Some (Response.url r) /\
       preprocess P (VResponse r) = inr (VResponse r)) /\
    (forall u, preprocess P (VURL u) = inr (VURL u)) /\
    (forall b, preprocess P (VBlob b) = inr (VBlob b)) /\
    (forall b, preprocess P (VBytes b) = inr (VBytes b)) /\
    (forall f, preprocess P (VFunction f) = inr (VFunction f)) /\
    (forall (Q : Platform) data,
       (forall s, new_URL Q s = new_URL P s) ->
       preprocess Q data = preprocess P data).
Proof.
  intros P. repeat apply conj; try (intros; reflexivity).
  - intros data b H. destruct data; try discriminate.
    unfold preprocess. cbn [in_operator and_then]. rewrite H. reflexivity.
  - intros data v H1 H2. destruct data; try discriminate;
      unfold preprocess; cbn [in_operator and_then]; rewrite H1, H2;
      reflexivity.
  - intros data r H1 H2 H3. destruct data; try discriminate. reflexivity.
  - intros data s H1 H2 H3 H4. destruct data; try discriminate.
    unfold preprocess. cbn [in_operator and_then].
    rewrite H1, H2, H3, H4. reflexivity.
  - intros data Hobj H1 H2 H3 H4. unfold preprocess.
    rewrite Hobj, H1, H2, H3, H4. reflexivity.
  - intros o b H. rewrite preprocess_object, H. reflexivity.
  - intros o r H1 H2. rewrite preprocess_object, H1, H2. reflexivity.
  - intros o s H1 H2 H3. rewrite preprocess_object, H1, H2, H3. reflexivity.
  - intros o H1 H2 H3. rewrite preprocess_object, H1, H2, H3. reflexivity.
  - intros it b H. unfold preprocess. cbn. rewrite H. reflexivity.
  - intros it H. unfold preprocess. cbn. rewrite H. reflexivity.
  - intros r. split; reflexivity.
  - intros Q data H. unfold preprocess.
    destruct (in_operator "base64" data); [reflexivity|]. cbn [and_then].
    destruct (prop_base64 data); [rewrite H; reflexivity|].
    destruct (prop_readable data); [reflexivity|].
    destruct (instanceof_Response data); [reflexivity|].
    destruct (prop_url data); [rewrite H; reflexivity|reflexivity].
Qed.

Lemma preprocess_first_match_wins_witness :
  PlainObject.base64 Sample.mixed_object = Some "QUJD" /\
  preprocess Sample.platform (VObject Sample.mixed_object) =
    inr (VURL {| URL.href := "data:;base64,QUJD"; URL.scheme := "data";
                 URL.hostname := ""; URL.pathname := ";base64,QUJD" |}) /\
  PlainObject.base64 Sample.stream_and_url = None /\
  PlainObject.readable Sample.stream_and_url = Some (Sample.stream 1) /\
  preprocess Sample.platform (VObject Sample.stream_and_url) =
    inr (VIterable (Sample.stream 1)) /\
  AsyncIterable.readable Sample.log_stream = Some true /\
  preprocess Sample.platform (VIterable Sample.log_stream) = inr (VBoolean true).
Proof.
  pose proof (preprocess_first_match_wins Sample.platform)
    as [_ [_ [_ [_ [_ [H6 [H7 [_ [_ [H10 _]]]]]]]]]].
  split; [reflexivity|].
  split; [exact (H6 Sample.mixed_object "QUJD" eq_refl)|].
  split; [reflexivity|]. split; [reflexivity|].
  split; [exact (H7 Sample.stream_and_url (Sample.stream 1) eq_refl eq_refl)|].
  split; [reflexivity|].
  exact (H10 Sample.log_stream true eq_refl).
Defined.

(** C10. When the URL parser rejects [s], constructing an [InputFile] from
    [{ url: s }] throws what the parser threw, with or without an explicit
    file name: no instance comes into being, so nothing can be read. *)
Theorem unparsable_url_throws_in_constructor :
  forall (P : Platform) (s : string) (filename : option string) (e : Thrown),
    new_URL P s = inl e ->
    preprocess P (VUrl s) = inl e /\
    new_InputFile P (VUrl s) filename = inl e.
Proof.
  intros P s filename e H.
  unfold new_InputFile, preprocess. simpl. rewrite H. split; reflexivity.
Qed.

Lemma unparsable_url_throws_in_constructor_witness :
  new_URL Sample.platform "not a url" = inl (TypeError "Invalid URL") /\
  preprocess Sample.platform (VUrl "not a url") = inl (TypeError "Invalid URL") /\
  new_InputFile Sample.platform (VUrl "not a url") (Some "a.txt") =
    inl (TypeError "Invalid URL").
Proof.
  split; [reflexivity|].
  apply (unparsable_url_throws_in_constructor Sample.platform "not a url"
           (Some "a.txt") (TypeError "Invalid URL")).
  reflexivity.
Defined.

(** ** File-name inference *)

Lemma guessFilename_URL (P : Platform) (u : URL.t) :
  guessFilename P (VURL u) =
    inr (Some (if negb (URL.pathname u =? "/") && truthy (basename (URL.pathname u))
               then basename (URL.pathname u)
               else basename (URL.hostname u))).
Proof.
  unfold guessFilename. cbn [prop_path_string prop_url and_then instanceof_File instanceof_URL].
  destruct (negb (URL.pathname u =? "/")); cbn [andb]; [|reflexivity].
  destruct (truthy (basename (URL.pathname u))); reflexivity.
Qed.



Lemma prop_url_object (d : Value) (s : string) :
  prop_url d = Some s -> in_operator "path" d = inr tt.
Proof. destruct d; try discriminate; reflexivity. Qed.




(** C9 (as amended). For [{ base64: s }] without an explicit file name,
    where [s] is not empty, has no slash, and is taken over whole as the
    path component of the URL parsed from [data:;base64,<s>] (the parser
    ends the path at a [?] or [#] and drops or escapes some characters),
    the instance holds that URL and its name is [;base64,<s>]: it is not
    absent. *)
Theorem base64_name_is_data_URL_path :
  forall (P : Platform) (s : string) (u : URL.t),
    s <> "" -> has_slash s = false ->
    new_URL P ("data:;base64," ++ s) = inr u ->
    URL.pathname u = (";base64," ++ s)%string ->
    new_InputFile P (VBase64 s) None =
      inr {| consumed := false; fileData := VURL u;
             name := Some (";base64," ++ s)%string |}.
Proof.
  intros P s u _ Hs Hu Hpath.
  unfold new_InputFile, preprocess. cbn [prop_base64 VBase64 in_operator
    PlainObject.base64 and_then].
  rewrite Hu. cbn [and_then]. rewrite guessFilename_URL, Hpath.
  assert (Hb : basename (";base64," ++ s) = (";base64," ++ s)%string).
  { apply basename_no_slash. rewrite has_slash_app, Hs. reflexivity. }
  rewrite Hb. reflexivity.
Qed.

Lemma base64_name_is_data_URL_path_witness :
  "QUJD" <> "" /\ has_slash "QUJD" = false /\
  new_InputFile Sample.platform (VBase64 "QUJD") None =
    inr {| consumed := false;
           fileData := VURL {| URL.href := "data:;base64,QUJD";
                               URL.scheme := "data"; URL.hostname := "";
                               URL.pathname := ";base64,QUJD" |};
           name := Some ";base64,QUJD" |}.
Proof.
  split; [discriminate|]. split; [reflexivity|].
  apply (base64_name_is_data_URL_path Sample.platform "QUJD");
    [discriminate | reflexivity | reflexivity | reflexivity].
Defined.

(** The claim as first stated fails at [{ base64: "QUJD?x" }]: the payload
    is not empty and has no slash, but the path of the data URL ends at the
    question mark, and the name is [;base64,QUJD]. *)
Lemma base64_name_is_cut_at_query :
  "QUJD?x" <> "" /\ has_slash "QUJD?x" = false /\
  new_InputFile Sample.platform (VBase64 "QUJD?x") None =
    inr {| consumed := false;
           fileData := VURL {| URL.href := "data:;base64,QUJD?x";
                               URL.scheme := "data"; URL.hostname := "";
                               URL.pathname := ";base64,QUJD" |};
           name := Some ";base64,QUJD" |} /\
  ";base64,QUJD" <> (";base64," ++ "QUJD?x")%string.
Proof.
  split; [discriminate|]. split; [reflexivity|]. split; [reflexivity|].
  discriminate.
Qed.

(** ** Reading *)

(** The [protocol] of a URL ends in a colon, so it is never the string
    [file]: the test at the head of [fetchFile] fails for every URL. *)
Lemma protocol_is_never_file (u : URL.t) : (URL.protocol u =? "file") = false.
Proof.
  apply String.eqb_neq. unfold URL.protocol.
  destruct (URL.scheme u) as [|c1 [|c2 [|c3 [|c4 [|c5 s]]]]]; simpl; intros H;
    discriminate.
Qed.

Lemma fetchFile_fetches (P : Platform) (u : URL.t) (this : InputFile) (h : list Event) :
  fetchFile P u this h =
    {| this_after := this; emitted := [EvFetch u]; yielded := [];
       completion :=
         let? response := fetch P h u in
         match Response.ok response, Response.body response with
         | true, Some body => inr body
         | _, _ => inl (new_ResponseError response)
         end |}.
Proof.
  unfold fetchFile. rewrite protocol_is_never_file.
  unfold bind, host. cbn [completion this_after emitted yielded].
  destruct (fetch P h u) as [e|r]; [reflexivity|].
  cbn [and_then].
  destruct (Response.ok r), (Response.body r); reflexivity.
Qed.

Lemma read_refused (P : Platform) (this : InputFile) (h : list Event) :
  consumed this = true ->
  asyncIterator P this h =
    {| this_after := this; emitted := []; yielded := [];
       completion := inl (TypeError reuse_message) |}.
Proof.
  intros H. unfold asyncIterator, bind, this_fileData, this_consumed.
  cbn [completion this_after emitted yielded]. rewrite H. reflexivity.
Qed.

(** The instance a read leaves behind. *)
Lemma read_this_after (P : Platform) (this : InputFile) (h : list Event) :
  this_after (asyncIterator P this h) =
    if consumed this then this
    else match fileData this with
         | VIterable _ => mark_consumed this
         | VResponse r =>
             match Response.body r with
             | Some _ => mark_consumed this
             | None => this
             end
         | _ => this
         end.
Proof.
  destruct (consumed this) eqn:Hc.
  - rewrite read_refused by exact Hc. reflexivity.
  - unfold asyncIterator, bind, this_fileData, this_consumed.
    cbn [completion this_after emitted yielded]. rewrite Hc.
    destruct (fileData this) as [o|u|b|r|b|it|f|b];
      cbn [typeof_function instanceof_Uint8Array prop_stream
           prop_asyncIterator prop_path instanceof_Response instanceof_URL
           in_operator lift completion this_after emitted yielded].
    + destruct (PlainObject.path o) as [p|]; [|reflexivity].
      unfold readFile. destruct (isDeno P); unfold host;
        cbn [completion this_after emitted yielded];
        match goal with |- context [match ?c with inl _ => _ | inr _ => _ end] =>
          destruct c end; reflexivity.
    + rewrite fetchFile_fetches. cbn [completion this_after emitted yielded].
      destruct (fetch P _ u) as [e|r]; [reflexivity|]. cbn [and_then].
      destruct (Response.ok r), (Response.body r); reflexivity.
    + unfold host. cbn [completion this_after emitted yielded].
      destruct (Blob_stream P _ b); reflexivity.
    + destruct (Response.body r); reflexivity.
    + reflexivity.
    + reflexivity.
    + unfold host. cbn [completion this_after emitted yielded].
      destruct (call P _ f); reflexivity.
    + reflexivity.
Qed.

Lemma new_InputFile_fresh (P : Platform) (file : Value)
      (filename : option string) (this : InputFile) :
  new_InputFile P file filename = inr this ->
  consumed this = false /\ preprocess P file = inr (fileData this).
Proof.
  unfold new_InputFile, and_then.
  destruct (preprocess P file) as [e|d]; [discriminate|].
  destruct filename as [given|].
  - intros H. injection H as <-. split; reflexivity.
  - destruct (guessFilename P d); [discriminate|].
    intros H. injection H as <-. split; reflexivity.
Qed.


Lemma read_response (P : Platform) (this : InputFile) (h : list Event)
      (r : Response.t) :
  consumed this = false -> fileData this = VResponse r ->
  asyncIterator P this h =
    match Response.body r with
    | None =>
        {| this_after := this; emitted := []; yielded := [];
           completion := inl (new_ResponseError r) |}
    | Some body =>
        {| this_after := mark_consumed this; emitted := [EvIterate body];
           yielded := fst (iterate P h body);
           completion := drained (snd (iterate P h body)) |}
    end.
Proof.
  intros Hc Hd. unfold asyncIterator, bind, this_fileData, this_consumed.
  cbn [completion this_after emitted yielded]. rewrite Hc, Hd.
  cbn [typeof_function instanceof_Uint8Array prop_stream
       prop_asyncIterator prop_path instanceof_Response].
  destruct (Response.body r); cbn; rewrite ?app_nil_r; reflexivity.
Qed.

Lemma read_function (P : Platform) (this : InputFile) (h : list Event)
      (f : Producer) :
  consumed this = false -> fileData this = VFunction f ->
  asyncIterator P this h =
    match call P h f with
    | inl e =>
        {| this_after := this; emitted := [EvCall f]; yielded := [];
           completion := inl e |}
    | inr it =>
        {| this_after := this; emitted := [EvCall f; EvIterate it];
           yielded := fst (iterate P (h ++ [EvCall f]) it);
           completion := drained (snd (iterate P (h ++ [EvCall f]) it)) |}
    end.
Proof.
  intros Hc Hd. unfold asyncIterator, bind, this_fileData, this_consumed.
  cbn [completion this_after emitted yielded]. rewrite Hc, Hd.
  cbn [typeof_function host completion this_after emitted yielded].
  rewrite !app_nil_r.
  destruct (call P h f); reflexivity.
Qed.

Lemma read_URL (P : Platform) (this : InputFile) (h : list Event) (u : URL.t) :
  consumed this = false -> fileData this = VURL u ->
  asyncIterator P this h =
    match fetch P h u with
    | inl e =>
        {| this_after := this; emitted := [EvFetch u]; yielded := [];
           completion := inl e |}
    | inr r =>
        match Response.ok r, Response.body r with
        | true, Some body =>
            {| this_after := this; emitted := [EvFetch u; EvIterate body];
               yielded := fst (iterate P (h ++ [EvFetch u]) body);
               completion := drained (snd (iterate P (h ++ [EvFetch u]) body)) |}
        | _, _ =>
            {| this_after := this; emitted := [EvFetch u]; yielded := [];
               completion := inl (new_ResponseError r) |}
        end
    end.
Proof.
  intros Hc Hd. unfold asyncIterator, bind, this_fileData, this_consumed.
  cbn [completion this_after emitted yielded]. rewrite Hc, Hd.
  cbn [typeof_function instanceof_Uint8Array prop_stream
       prop_asyncIterator prop_path instanceof_Response instanceof_URL].
  rewrite fetchFile_fetches. cbn [completion this_after emitted yielded].
  rewrite !app_nil_r.
  destruct (fetch P h u) as [e|r]; [reflexivity|]. cbn [and_then].
  destruct (Response.ok r), (Response.body r); reflexivity.
Qed.


Lemma read_boolean (P : Platform) (this : InputFile) (h : list Event) (b : bool) :
  consumed this = false -> fileData this = VBoolean b ->
  asyncIterator P this h =
    {| this_after := this; emitted := []; yielded := [];
       completion :=
         inl (TypeError ("Cannot use 'in' operator to search for 'stream' in " ++
                         (if b then "true" else "false"))) |}.
Proof.
  intros Hc Hd. unfold asyncIterator, bind, this_fileData, this_consumed.
  cbn [completion this_after emitted yielded]. rewrite Hc, Hd. reflexivity.
Qed.

Lemma read_times_step (P : Platform) (n : nat) (this : InputFile) (h : list Event) :
  instance_after (read_times P (S n) this h) =
    instance_after
      (read_times P n (this_after (asyncIterator P this h))
         (h ++ emitted (asyncIterator P this h))).
Proof.
  cbn [read_times].
  destruct (read_times P n _ _) as [[rs this'] h']. reflexivity.
Qed.


(** C1, at the failing input.  Reading an instance made from the URL
    [file:///tmp/a.txt] starts with a [fetch] of that URL and never opens
    the path: [url.protocol] is [file:] with its colon, so the comparison
    with [file] at the head of [fetchFile] is false. *)
Theorem file_scheme_URL_is_fetched :
  forall (P : Platform) (h : list Event),
    let this := {| consumed := false; fileData := VURL Sample.file_tmp;
                   name := Some "a.txt" |} in
    URL.scheme Sample.file_tmp = "file" /\
    URL.protocol Sample.file_tmp = "file:" /\
    new_InputFile P (VURL Sample.file_tmp) None = inr this /\
    hd_error (emitted (asyncIterator P this h)) = Some (EvFetch Sample.file_tmp) /\
    ~ In (EvDenoOpen "/tmp/a.txt") (emitted (asyncIterator P this h)) /\
    ~ In (EvCreateReadStream "/tmp/a.txt") (emitted (asyncIterator P this h)).
Proof.
  intros P h this.
  do 3 (split; [reflexivity|]).
  rewrite (read_URL P this h Sample.file_tmp) by reflexivity.
  destruct (fetch P h Sample.file_tmp) as [e|r].
  - cbn. repeat split; intros [H|[]]; discriminate.
  - destruct (Response.ok r), (Response.body r); cbn; repeat split;
      intros H; repeat (destruct H as [H|H]; [discriminate|]); exact H.
Qed.

(** C2. Take an instance made from [{ readable }], from a [Response] or from
    an async iterable.  If a first read ran to its end without an exception,
    the next read throws the [TypeError] of the guard at once: it calls
    nothing on the host and yields nothing. *)
Theorem second_read_is_refused :
  forall (P : Platform) (file : Value) (filename : option string)
         (this : InputFile) (h : list Event),
    (exists it, file = VReadable it) \/
    (exists r, file = VResponse r) \/
    (exists it, file = VIterable it) ->
    new_InputFile P file filename = inr this ->
    completion (asyncIterator P this h) = inr tt ->
    let first := asyncIterator P this h in
    asyncIterator P (this_after first) (h ++ emitted first) =
      {| this_after := this_after first; emitted := []; yielded := [];
         completion := inl (TypeError "Cannot reuse InputFile data source!") |}.
Proof.
  intros P file filename this h Hfile Hnew Hfirst first.
  apply new_InputFile_fresh in Hnew. destruct Hnew as [Hc Hd].
  apply read_refused. subst first. rewrite read_this_after, Hc.
  destruct Hfile as [[it ->]|[[r ->]|[it ->]]].
  - rewrite (proj1 (proj2 (proj2 (proj2 (proj2 (proj2 (proj2 (proj2
      (proj2 (preprocess_shapes P)))))))))) in Hd.
    injection Hd as Hd. rewrite <- Hd. reflexivity.
  - cbn in Hd. injection Hd as Hd. rewrite <- Hd.
    rewrite (read_response P this h r) in Hfirst
      by (assumption || (symmetry; assumption)).
    destruct (Response.body r); [reflexivity|discriminate].
  - rewrite (proj1 (proj2 (proj2 (proj2 (proj2 (proj2 (proj2
      (preprocess_shapes P)))))))) in Hd.
    injection Hd as Hd.
    destruct (AsyncIterable.readable it) as [b|].
    + rewrite (read_boolean P this h b Hc (eq_sym Hd)) in Hfirst.
      discriminate.
    + rewrite <- Hd. reflexivity.
Qed.

Lemma second_read_is_refused_witness :
  let this := {| consumed := false; fileData := VIterable (Sample.stream 1);
                 name := None |} in
  new_InputFile Sample.platform (VReadable (Sample.stream 1)) None = inr this /\
  asyncIterator Sample.platform this [] =
    {| this_after := mark_consumed this;
       emitted := [EvIterate (Sample.stream 1)];
       yielded := [Sample.chunk]; completion := inr tt |} /\
  asyncIterator Sample.platform (mark_consumed this) [EvIterate (Sample.stream 1)] =
    {| this_after := mark_consumed this; emitted := []; yielded := [];
       completion := inl (TypeError "Cannot reuse InputFile data source!") |}.
Proof.
  intros this. split; [reflexivity|]. split; [reflexivity|].
  apply (second_read_is_refused Sample.platform (VReadable (Sample.stream 1))
           None this []).
  - left. exists (Sample.stream 1). reflexivity.
  - reflexivity.
  - reflexivity.
Defined.

Lemma append_empty_r (s : string) : (s ++ "")%string = s.
Proof.
  induction s as [|c s IH]; simpl; [reflexivity|]. rewrite IH. reflexivity.
Qed.

(** C3. On an instance not yet consumed: when the [Response] it holds has a
    [null] body, and when the [fetch] of the URL it holds returns a response
    that is not [ok] or has a [null] body, the read throws the
    [ResponseError] made from that response.  Its [error_code] is the
    response's [status]; its message is the status text, or
    [No response body] when the body is [null], followed by [ from <url>]
    when the response's [url] is not empty. *)
Theorem unusable_response_raises_ResponseError :
  forall (P : Platform) (this : InputFile) (h : list Event),
    consumed this = false ->
    (forall r, fileData this = VResponse r -> Response.body r = None ->
       asyncIterator P this h =
         {| this_after := this; emitted := []; yielded := [];
            completion := inl (new_ResponseError r) |}) /\
    (forall u r, fileData this = VURL u -> fetch P h u = inr r ->
       Response.ok r = false \/ Response.body r = None ->
       asyncIterator P this h =
         {| this_after := this; emitted := [EvFetch u]; yielded := [];
            completion := inl (new_ResponseError r) |}) /\
    (forall r,
       new_ResponseError r =
         ResponseError
           ((match Response.body r with
             | Some _ => Response.statusText r
             | None => "No response body"
             end) ++
            (if Response.url r =? "" then "" else " from " ++ Response.url r))
           (Response.status r) r).
Proof.
  intros P this h Hc. repeat apply conj.
  - intros r Hd Hb. rewrite (read_response P this h r Hc Hd), Hb. reflexivity.
  - intros u r Hd Hf Hbad. rewrite (read_URL P this h u Hc Hd), Hf.
    destruct Hbad as [Hbad|Hbad]; rewrite Hbad.
    + reflexivity.
    + destruct (Response.ok r); reflexivity.
  - intros r. unfold new_ResponseError, truthy.
    destruct (Response.url r =? ""); cbn [negb].
    + rewrite append_empty_r. reflexivity.
    + reflexivity.
Qed.

Lemma unusable_response_raises_ResponseError_witness :
  let this := {| consumed := false; fileData := VResponse Sample.empty_response;
                 name := Some "none" |} in
  consumed this = false /\
  new_InputFile Sample.platform (VResponse Sample.empty_response) None = inr this /\
  asyncIterator Sample.platform this [] =
    {| this_after := this; emitted := []; yielded := [];
       completion :=
         inl (ResponseError "No response body from https://example.com/none"
                204 Sample.empty_response) |}.
Proof.
  intros this. split; [reflexivity|]. split; [reflexivity|].
  exact (proj1 (unusable_response_raises_ResponseError Sample.platform this []
                  eq_refl) Sample.empty_response eq_refl eq_refl).
Defined.

Example not_found_is_reported :
  let u := {| URL.href := "https://example.com/data/x.bin"; URL.scheme := "https";
              URL.hostname := "example.com"; URL.pathname := "/data/x.bin" |} in
  let this := {| consumed := false; fileData := VURL u; name := Some "x.bin" |} in
  new_InputFile Sample.platform (VUrl "https://example.com/data/x.bin") None = inr this /\
  asyncIterator Sample.platform this [] =
    {| this_after := this; emitted := [EvFetch u]; yielded := [];
       completion :=
         inl (ResponseError "Not Found from https://example.com/data/x.bin"
                404 (Sample.not_found u)) |}.
Proof. split; reflexivity. Qed.

(** ** The [consumed] flag *)

Lemma read_keeps_consumed (P : Platform) (this : InputFile) (h : list Event) :
  consumed this = true -> this_after (asyncIterator P this h) = this.
Proof.
  intros H. rewrite read_this_after, H. reflexivity.
Qed.

Lemma read_rereadable (P : Platform) (this : InputFile) (h : list Event) :
  single_use (fileData this) = false ->
  this_after (asyncIterator P this h) = this.
Proof.
  intros H. rewrite read_this_after.
  destruct (consumed this); [reflexivity|].
  destruct (fileData this); try reflexivity; discriminate.
Qed.

Lemma read_times_consumed (P : Platform) (n : nat) :
  forall (this : InputFile) (h : list Event),
    consumed this = true -> instance_after (read_times P n this h) = this.
Proof.
  induction n as [|n IH]; intros this h H.
  - reflexivity.
  - rewrite read_times_step, read_keeps_consumed by exact H.
    apply IH. exact H.
Qed.

Lemma read_times_rereadable (P : Platform) (n : nat) :
  forall (this : InputFile) (h : list Event),
    single_use (fileData this) = false ->
    instance_after (read_times P n this h) = this.
Proof.
  induction n as [|n IH]; intros this h H.
  - reflexivity.
  - rewrite read_times_step, read_rereadable by exact H.
    apply IH. exact H.
Qed.

Lemma rereadable_source_not_single_use (P : Platform) (file fileData : Value) :
  rereadable_source file = true -> preprocess P file = inr fileData ->
  single_use fileData = false.
Proof.
  destruct file as [o|u|b|r|b|it|f|b]; try discriminate; intros Hsrc;
    try (intros H; injection H as <-; reflexivity).
  rewrite preprocess_object. unfold and_then. cbn in Hsrc.
  destruct (PlainObject.base64 o) as [b|].
  { destruct (new_URL P _); [discriminate|].
    intros H. injection H as <-. reflexivity. }
  destruct (PlainObject.readable o) as [r|]; [discriminate|].
  destruct (PlainObject.url o) as [s|].
  { destruct (new_URL P _); [discriminate|].
    intros H. injection H as <-. reflexivity. }
  intros H. injection H as <-. reflexivity.
Qed.

(** C4. A new instance has [consumed = false].  A read never changes
    [fileData] or [name], and it never clears the flag: once [consumed] is
    true every later read leaves the instance as it is, so over any run of
    reads the flag goes from false to true at most once.  A read sets the
    flag only when [fileData] is an async iterable (given directly or as
    [{ readable }]) or a [Response].  Instances made from bytes, a path, a
    URL, [{ url }], [{ base64 }] or a producer function are left unchanged
    by any number of reads, so their flag stays false. *)
Theorem consumed_flag_discipline :
  forall P : Platform,
    (forall file filename this,
       new_InputFile P file filename = inr this -> consumed this = false) /\
    (forall this h,
       fileData (this_after (asyncIterator P this h)) = fileData this /\
       name (this_after (asyncIterator P this h)) = name this) /\
    (forall this h,
       consumed this = true ->
       consumed (this_after (asyncIterator P this h)) = true) /\
    (forall n this h,
       consumed this = true ->
       consumed (instance_after (read_times P n this h)) = true) /\
    (forall this h,
       consumed this = false ->
       consumed (this_after (asyncIterator P this h)) = true ->
       (exists it, fileData this = VIterable it) \/
       (exists r, fileData this = VResponse r)) /\
    (forall file filename this n h,
       rereadable_source file = true ->
       new_InputFile P file filename = inr this ->
       instance_after (read_times P n this h) = this /\
       consumed (instance_after (read_times P n this h)) = false).
Proof.
  intros P. repeat apply conj.
  - intros file filename this H. apply (new_InputFile_fresh P file filename this H).
  - intros [c d n] h. rewrite read_this_after.
    cbn [consumed fileData name].
    destruct c; [split; reflexivity|].
    destruct d as [o|u|b|r|b|it|f|b]; try (split; reflexivity).
    destruct (Response.body r); split; reflexivity.
  - intros this h H. rewrite read_keeps_consumed; assumption.
  - intros n this h H. rewrite read_times_consumed; assumption.
  - intros [c d n] h Hc. rewrite read_this_after.
    cbn [consumed fileData name] in *. subst c.
    destruct d as [o|u|b|r|b|it|f|b]; intros H; try discriminate.
    + right. exists r. reflexivity.
    + left. exists it. reflexivity.
  - intros file filename this n h Hsrc Hnew.
    apply new_InputFile_fresh in Hnew. destruct Hnew as [Hc Hd].
    rewrite read_times_rereadable.
    + split; [reflexivity|exact Hc].
    + apply (rereadable_source_not_single_use P file); assumption.
Qed.

Lemma consumed_flag_discipline_witness :
  let this := {| consumed := false;
                 fileData := VURL {| URL.href := "data:;base64,QUJD";
                                     URL.scheme := "data"; URL.hostname := "";
                                     URL.pathname := ";base64,QUJD" |};
                 name := Some "abc.txt" |} in
  rereadable_source (VBase64 "QUJD") = true /\
  new_InputFile Sample.platform (VBase64 "QUJD") (Some "abc.txt") = inr this /\
  instance_after (read_times Sample.platform 3 this []) = this /\
  consumed (instance_after (read_times Sample.platform 3 this [])) = false.
Proof.
  intros this. split; [reflexivity|]. split; [reflexivity|].
  exact (proj2 (proj2 (proj2 (proj2 (proj2
    (consumed_flag_discipline Sample.platform)))))
    (VBase64 "QUJD") (Some "abc.txt") this 3 [] eq_refl eq_refl).
Defined.

Example single_use_flag_is_set_once :
  let this := {| consumed := false; fileData := VResponse Sample.photo_response;
                 name := Some "photo.png" |} in
  new_InputFile Sample.platform (VResponse Sample.photo_response) None = inr this /\
  map (fun r => consumed (this_after r))
      (fst (fst (read_times Sample.platform 3 this []))) = [true; true; true] /\
  map (@completion unit) (fst (fst (read_times Sample.platform 3 this []))) =
    [inr tt; inl (TypeError reuse_message); inl (TypeError reuse_message)] /\
  map (@emitted unit) (fst (fst (read_times Sample.platform 3 this []))) =
    [[EvIterate (Sample.stream 3)]; []; []].
Proof. repeat split. Qed.

(** ** Lazy sources *)

(** C6. An instance made from a producer function can be read twice.  When
    the producer returns an iterable on each call and each iterable drains
    to its end, both reads end normally: each calls the producer once, then
    drains the iterable that very call returned, yields its chunks, and
    leaves the instance untouched.  Whatever the producer does, no number
    of reads changes the instance, and every read begins by calling the
    producer: the guard never fires. *)
Theorem lazy_source_reads_twice :
  forall (P : Platform) (f : Producer) (filename : option string)
         (h : list Event) (it1 it2 : AsyncIterable.t),
    let this := {| consumed := false; fileData := VFunction f;
                   name := filename |} in
    let h2 := h ++ [EvCall f; EvIterate it1] in
    call P h f = inr it1 ->
    snd (iterate P (h ++ [EvCall f]) it1) = None ->
    call P h2 f = inr it2 ->
    snd (iterate P (h2 ++ [EvCall f]) it2) = None ->
    new_InputFile P (VFunction f) filename = inr this /\
    asyncIterator P this h =
      {| this_after := this; emitted := [EvCall f; EvIterate it1];
         yielded := fst (iterate P (h ++ [EvCall f]) it1);
         completion := inr tt |} /\
    asyncIterator P this h2 =
      {| this_after := this; emitted := [EvCall f; EvIterate it2];
         yielded := fst (iterate P (h2 ++ [EvCall f]) it2);
         completion := inr tt |} /\
    (forall n h', instance_after (read_times P n this h') = this) /\
    (forall h', hd_error (emitted (asyncIterator P this h')) = Some (EvCall f)).
Proof.
  intros P f filename h it1 it2 this h2 Hc1 Hd1 Hc2 Hd2.
  split; [destruct filename; reflexivity|].
  repeat apply conj.
  - rewrite (read_function P this h f) by reflexivity.
    rewrite Hc1, Hd1. reflexivity.
  - rewrite (read_function P this h2 f) by reflexivity.
    rewrite Hc2, Hd2. reflexivity.
  - intros n h'. apply read_times_rereadable. reflexivity.
  - intros h'. rewrite (read_function P this h' f) by reflexivity.
    destruct (call P h' f); reflexivity.
Qed.

Lemma lazy_source_reads_twice_witness :
  let this := {| consumed := false; fileData := VFunction 5; name := None |} in
  new_InputFile Sample.platform (VFunction 5) None = inr this /\
  asyncIterator Sample.platform this [] =
    {| this_after := this; emitted := [EvCall 5; EvIterate (Sample.stream 5)];
       yielded := [Sample.chunk]; completion := inr tt |} /\
  asyncIterator Sample.platform this [EvCall 5; EvIterate (Sample.stream 5)] =
    {| this_after := this; emitted := [EvCall 5; EvIterate (Sample.stream 7)];
       yielded := [Sample.chunk]; completion := inr tt |}.
Proof.
  pose proof (lazy_source_reads_twice Sample.platform 5 None []
                (Sample.stream 5) (Sample.stream 7)
                eq_refl eq_refl eq_refl eq_refl) as [H0 [H1 [H2 _]]].
  exact (conj H0 (conj H1 H2)).
Defined.

(** * Further properties of the constructor *)

Lemma scan_keeps_no_slash (l kept : list ascii) (m : bool) :
  existsb is_slash kept = false -> existsb is_slash (scan l m kept) = false.
Proof.
  revert m kept. induction l as [|c l IH]; intros m kept H; simpl.
  - exact H.
  - destruct (is_slash c) eqn:Hc.
    + destruct m; [apply IH; exact H|exact H].
    + apply IH. simpl. rewrite Hc, H. reflexivity.
Qed.

Lemma basename_has_no_slash (path : string) : has_slash (basename path) = false.
Proof.
  unfold has_slash, basename. rewrite list_ascii_of_string_of_list_ascii.
  apply scan_keeps_no_slash. reflexivity.
Qed.

Lemma basename_trailing_slash (path : string) :
  basename (path ++ "/") = basename path.
Proof.
  unfold basename. rewrite list_ascii_of_string_app, rev_app_distr. reflexivity.
Qed.

Lemma guessFilename_URL_no_slash (P : Platform) (u : URL.t) (n : string) :
  guessFilename P (VURL u) = inr (Some n) -> has_slash n = false.
Proof.
  rewrite guessFilename_URL. intros H. injection H as <-.
  destruct (negb (URL.pathname u =? "/") && truthy (basename (URL.pathname u)));
    apply basename_has_no_slash.
Qed.

Lemma guessFilename_upgrade (P : Platform) (d : Value) (s : string) (u : URL.t) :
  prop_path_string d = None -> prop_url d = Some s -> truthy s = true ->
  new_URL P s = inr u -> guessFilename P d = guessFilename P (VURL u).
Proof.
  intros Hp Hs Ht Hu. unfold guessFilename at 1.
  rewrite (prop_url_object _ _ Hs), Hp, Hs, Ht, Hu.
  cbn [and_then instanceof_File instanceof_URL].
  rewrite guessFilename_URL.
  destruct (negb (URL.pathname u =? "/")); cbn [andb]; [|reflexivity].
  destruct (truthy (basename (URL.pathname u))); reflexivity.
Qed.

Lemma guessFilename_upgrade_fails (P : Platform) (d : Value) (s : string) (e : Thrown) :
  prop_path_string d = None -> prop_url d = Some s -> truthy s = true ->
  new_URL P s = inl e -> guessFilename P d = inl e.
Proof.
  intros Hp Hs Ht Hu. unfold guessFilename.
  rewrite (prop_url_object _ _ Hs), Hp, Hs, Ht, Hu. reflexivity.
Qed.

(** [guessFilename] never throws on an iterable, a path-only object, a
    [Blob], bytes or a function. *)
Lemma guessFilename_iterable (P : Platform) (it : AsyncIterable.t) :
  guessFilename P (VIterable it) =
    inr (option_map basename (AsyncIterable.path it)).
Proof.
  unfold guessFilename. cbn. destruct (AsyncIterable.path it); reflexivity.
Qed.

Lemma guessFilename_object_without_url (P : Platform) (o : PlainObject.t) :
  PlainObject.url o = None ->
  guessFilename P (VObject o) = inr (option_map basename (PlainObject.path o)).
Proof.
  intros H. unfold guessFilename. cbn. rewrite H.
  destruct (PlainObject.path o); reflexivity.
Qed.



(** X2. What the wrappers do.  [{ readable: it }] stores [it] itself,
    whatever [it] is.  For an iterable without a [readable] property of its
    own this is the instance that [it] passed directly gives; a Node stream
    passed directly is instead replaced by its boolean [readable] flag, so
    it has to be wrapped.  [{ base64: b }] gives the same instance as
    [{ url: "data:;base64," + b }], and [{ url: s }] the same as the URL
    object parsed from [s]. *)
Theorem constructor_normalises_wrappers :
  forall (P : Platform) (filename : option string),
    (forall it, preprocess P (VReadable it) = inr (VIterable it)) /\
    (forall it, AsyncIterable.readable it = None ->
       new_InputFile P (VReadable it) filename =
       new_InputFile P (VIterable it) filename) /\
    (forall it b, AsyncIterable.readable it = Some b ->
       preprocess P (VIterable it) = inr (VBoolean b)) /\
    (forall b, new_InputFile P (VBase64 b) filename =
               new_InputFile P (VUrl ("data:;base64," ++ b)) filename) /\
    (forall s u, new_URL P s = inr u ->
       new_InputFile P (VUrl s) filename = new_InputFile P (VURL u) filename).
Proof.
  intros P filename. repeat apply conj.
  - reflexivity.
  - intros it H. unfold new_InputFile, preprocess. cbn. rewrite H. reflexivity.
  - intros it b H. unfold preprocess. cbn. rewrite H. reflexivity.
  - reflexivity.
  - intros s u H. unfold new_InputFile.
    rewrite (proj1 (proj2 (preprocess_shapes P))), H. reflexivity.
Qed.

Lemma constructor_normalises_wrappers_witness :
  AsyncIterable.readable Sample.log_stream = Some true /\
  new_InputFile Sample.platform (VReadable Sample.log_stream) (Some "today.log") =
    inr {| consumed := false; fileData := VIterable Sample.log_stream;
           name := Some "today.log" |} /\
  new_InputFile Sample.platform (VIterable Sample.log_stream) (Some "today.log") =
    inr {| consumed := false; fileData := VBoolean true;
           name := Some "today.log" |} /\
  preprocess Sample.platform (VIterable Sample.log_stream) = inr (VBoolean true).
Proof.
  split; [reflexivity|]. split; [reflexivity|]. split; [reflexivity|].
  apply (proj1 (proj2 (proj2
    (constructor_normalises_wrappers Sample.platform None)))).
  reflexivity.
Defined.

(** X3. [preprocess] has to run exactly once.  Applied again to its own
    result it returns that result unchanged, with two exceptions: a Node
    stream (which it took out of a [{ readable }] wrapper) becomes its
    boolean [readable] flag, and on that boolean it throws the [TypeError]
    of the [in] operator. *)
Theorem preprocess_fixed_points :
  forall (P : Platform) (data d : Value),
    preprocess P data = inr d ->
    match d with
    | VBoolean b =>
        preprocess P d =
          inl (TypeError ("Cannot use 'in' operator to search for 'base64' in " ++
                          (if b then "true" else "false")))
    | VIterable it =>
        preprocess P d = inr (match AsyncIterable.readable it with
                              | Some b => VBoolean b
                              | None => d
                              end)
    | _ => preprocess P d = inr d
    end.
Proof.
  intros P data d H.
  destruct d as [o|u|b|r|b|it|f|b]; try reflexivity.
  - destruct data as [o'|u|b|r|b|it|f|b].
    + rewrite preprocess_object in H. unfold and_then in H.
      destruct (PlainObject.base64 o') as [b|] eqn:Hb.
      { destruct (new_URL P _); discriminate. }
      destruct (PlainObject.readable o') as [r|] eqn:Hr; [discriminate|].
      destruct (PlainObject.url o') as [s|] eqn:Hs.
      { destruct (new_URL P _); discriminate. }
      injection H as <-. rewrite preprocess_object, Hb, Hr, Hs. reflexivity.
    + discriminate.
    + discriminate.
    + discriminate.
    + discriminate.
    + unfold preprocess in H. cbn in H.
      destruct (AsyncIterable.readable it); discriminate.
    + discriminate.
    + discriminate.
  - apply (proj1 (proj2 (proj2 (proj2 (proj2 (proj2 (proj2
      (preprocess_shapes P)))))))).
Qed.

Lemma preprocess_fixed_points_witness :
  preprocess Sample.platform (VReadable Sample.log_stream) =
    inr (VIterable Sample.log_stream) /\
  preprocess Sample.platform (VIterable Sample.log_stream) =
    inr (VBoolean true).
Proof.
  split; [reflexivity|].
  exact (preprocess_fixed_points Sample.platform
           (VReadable Sample.log_stream) (VIterable Sample.log_stream) eq_refl).
Defined.

(** X4. A name that [guessFilename] infers from anything but a [File]
    contains no slash: it is always a last segment, never a path. *)
Theorem inferred_name_has_no_separator :
  forall (P : Platform) (fileData : Value) (n : string),
    instanceof_File fileData = None ->
    guessFilename P fileData = inr (Some n) ->
    has_slash n = false.
Proof.
  intros P d n Hfile.
  destruct d as [o|u|b|r|b|it|f|b].
  - destruct (PlainObject.path o) as [p|] eqn:Hp.
    { unfold guessFilename. cbn. rewrite Hp. intros H. injection H as <-.
      apply basename_has_no_slash. }
    destruct (PlainObject.url o) as [s|] eqn:Hs.
    + destruct (truthy s) eqn:Ht.
      * destruct (new_URL P s) as [e|u] eqn:Hu.
        -- rewrite (guessFilename_upgrade_fails P (VObject o) s e Hp Hs Ht Hu).
           discriminate.
        -- rewrite (guessFilename_upgrade P (VObject o) s u Hp Hs Ht Hu).
           apply guessFilename_URL_no_slash.
      * unfold guessFilename. cbn. rewrite Hp, Hs, Ht. discriminate.
    + rewrite (guessFilename_object_without_url P o Hs), Hp. discriminate.
  - apply guessFilename_URL_no_slash.
  - unfold guessFilename. cbn in Hfile. cbn. rewrite Hfile. discriminate.
  - destruct (truthy (Response.url r)) eqn:Ht.
    + destruct (new_URL P (Response.url r)) as [e|u] eqn:Hu.
      * rewrite (guessFilename_upgrade_fails P (VResponse r) _ e eq_refl eq_refl Ht Hu).
        discriminate.
      * rewrite (guessFilename_upgrade P (VResponse r) _ u eq_refl eq_refl Ht Hu).
        apply guessFilename_URL_no_slash.
    + unfold guessFilename. cbn [in_operator and_then prop_path_string prop_url].
      rewrite Ht. discriminate.
  - discriminate.
  - rewrite guessFilename_iterable.
    destruct (AsyncIterable.path it) as [p|]; [|discriminate].
    intros H. injection H as <-. apply basename_has_no_slash.
  - discriminate.
  - discriminate.
Qed.

Lemma inferred_name_has_no_separator_witness :
  instanceof_File (VResponse Sample.photo_response) = None /\
  guessFilename Sample.platform (VResponse Sample.photo_response) =
    inr (Some "photo.png") /\
  has_slash "photo.png" = false.
Proof.
  split; [reflexivity|]. split; [reflexivity|].
  apply (inferred_name_has_no_separator Sample.platform
           (VResponse Sample.photo_response) "photo.png"); reflexivity.
Defined.

(** X5. A slash at the end of a URL's path does not send the inference to
    the hostname: when the path is [p/] and [p] has a non-empty basename,
    the name is the basename of [p]. *)
Theorem trailing_slash_keeps_last_segment :
  forall (P : Platform) (u : URL.t) (p : string),
    URL.pathname u = (p ++ "/")%string -> basename p <> "" ->
    guessFilename P (VURL u) = inr (Some (basename p)).
Proof.
  intros P u p Hp Hb. rewrite guessFilename_URL, Hp, basename_trailing_slash.
  rewrite (truthy_true _ Hb).
  destruct (String.eqb_spec (p ++ "/") "/") as [E|E]; [|reflexivity].
  exfalso. apply Hb. destruct p as [|c p]; [reflexivity|].
  simpl in E. injection E as _ E. destruct p; discriminate.
Qed.

Lemma trailing_slash_keeps_last_segment_witness :
  new_InputFile Sample.platform (VUrl "https://example.com/data/") None =
    inr {| consumed := false;
           fileData := VURL {| URL.href := "https://example.com/data/";
                               URL.scheme := "https";
                               URL.hostname := "example.com";
                               URL.pathname := "/data/" |};
           name := Some "data" |} /\
  guessFilename Sample.platform
    (VURL {| URL.href := "https://example.com/data/"; URL.scheme := "https";
             URL.hostname := "example.com"; URL.pathname := "/data/" |}) =
    inr (Some (basename "/data")).
Proof.
  split; [reflexivity|].
  apply (trailing_slash_keeps_last_segment Sample.platform _ "/data");
    [reflexivity|discriminate].
Defined.

(** * Further properties of reading *)

Lemma read_blob (P : Platform) (this : InputFile) (h : list Event) (b : Blob.t) :
  consumed this = false -> fileData this = VBlob b ->
  asyncIterator P this h =
    match Blob_stream P h b with
    | inl e =>
        {| this_after := this; emitted := [EvStream b]; yielded := [];
           completion := inl e |}
    | inr it =>
        {| this_after := this; emitted := [EvStream b; EvIterate it];
           yielded := fst (iterate P (h ++ [EvStream b]) it);
           completion := drained (snd (iterate P (h ++ [EvStream b]) it)) |}
    end.
Proof.
  intros Hc Hd. unfold asyncIterator, bind, this_fileData, this_consumed.
  cbn [completion this_after emitted yielded]. rewrite Hc, Hd.
  cbn [typeof_function instanceof_Uint8Array prop_stream host
       completion this_after emitted yielded].
  rewrite !app_nil_r.
  destruct (Blob_stream P h b); reflexivity.
Qed.

Lemma read_path (P : Platform) (this : InputFile) (h : list Event)
      (o : PlainObject.t) (p : string) :
  consumed this = false -> fileData this = VObject o ->
  PlainObject.path o = Some p ->
  asyncIterator P this h =
    let opening := if isDeno P then EvDenoOpen p else EvCreateReadStream p in
    match (if isDeno P then Deno_open P h p else createReadStream P h p) with
    | inl e =>
        {| this_after := this; emitted := [opening]; yielded := [];
           completion := inl e |}
    | inr it =>
        {| this_after := this; emitted := [opening; EvIterate it];
           yielded := fst (iterate P (h ++ [opening]) it);
           completion := drained (snd (iterate P (h ++ [opening]) it)) |}
    end.
Proof.
  intros Hc Hd Hp. unfold asyncIterator, bind, this_fileData, this_consumed.
  cbn [completion this_after emitted yielded]. rewrite Hc, Hd.
  cbn [typeof_function instanceof_Uint8Array prop_stream prop_asyncIterator
       prop_path in_operator lift completion this_after emitted yielded].
  rewrite Hp. unfold readFile. rewrite !app_nil_r.
  destruct (isDeno P); unfold host; cbn [completion this_after emitted yielded].
  - destruct (Deno_open P h p); reflexivity.
  - destruct (createReadStream P h p); reflexivity.
Qed.


Lemma read_times_constant (P : Platform) (this : InputFile) (run : Run unit) :
  (forall h, asyncIterator P this h = run) ->
  this_after run = this -> emitted run = [] ->
  forall n h, read_times P n this h = (repeat run n, this, h).
Proof.
  intros Hrun Hthis Hsilent. induction n as [|n IH]; intros h.
  - reflexivity.
  - cbn [read_times repeat]. rewrite Hrun, Hthis, Hsilent, app_nil_r, IH.
    reflexivity.
Qed.

(** X6. A [Blob] or [File] is read through its own [stream()] method, called
    anew by every read; an exception of that call ends the read with no
    chunk.  The instance is left unchanged by any number of reads, so it can
    be read again.  Without an explicit file name a [File] is named by its
    [name] and a plain [Blob] has no name. *)
Theorem blob_source_streams_on_every_read :
  forall (P : Platform) (b : Blob.t) (filename : option string) (h : list Event),
    let this := {| consumed := false; fileData := VBlob b;
                   name := match filename with
                           | Some given => Some given
                           | None => Blob.name b
                           end |} in
    new_InputFile P (VBlob b) filename = inr this /\
    asyncIterator P this h =
      match Blob_stream P h b with
      | inl e =>
          {| this_after := this; emitted := [EvStream b]; yielded := [];
             completion := inl e |}
      | inr it =>
          {| this_after := this; emitted := [EvStream b; EvIterate it];
             yielded := fst (iterate P (h ++ [EvStream b]) it);
             completion := drained (snd (iterate P (h ++ [EvStream b]) it)) |}
      end /\
    (forall n h', instance_after (read_times P n this h') = this).
Proof.
  intros P b filename h this. repeat apply conj.
  - unfold new_InputFile, guessFilename. subst this.
    destruct filename; [reflexivity|]. cbn. destruct (Blob.name b); reflexivity.
  - apply read_blob; reflexivity.
  - intros n h'. apply read_times_rereadable. reflexivity.
Qed.

(** X7. A [{ path }] source is opened by exactly one call of the host's file
    API with that very path, [Deno.open] under Deno and
    [fs.createReadStream] otherwise, never both; the stream it returns is
    then drained, and an exception of the call ends the read with no chunk.
    The instance is left unchanged, and without an explicit file name it is
    named by the basename of the path. *)
Theorem path_source_opens_with_host_api :
  forall (P : Platform) (p : string) (filename : option string) (h : list Event),
    let this := {| consumed := false; fileData := VPath p;
                   name := match filename with
                           | Some given => Some given
                           | None => Some (basename p)
                           end |} in
    let opening := if isDeno P then EvDenoOpen p else EvCreateReadStream p in
    new_InputFile P (VPath p) filename = inr this /\
    asyncIterator P this h =
      match (if isDeno P then Deno_open P h p else createReadStream P h p) with
      | inl e =>
          {| this_after := this; emitted := [opening]; yielded := [];
             completion := inl e |}
      | inr it =>
          {| this_after := this; emitted := [opening; EvIterate it];
             yielded := fst (iterate P (h ++ [opening]) it);
             completion := drained (snd (iterate P (h ++ [opening]) it)) |}
      end /\
    (forall n h', instance_after (read_times P n this h') = this).
Proof.
  intros P p filename h this opening. repeat apply conj.
  - subst this. destruct filename; reflexivity.
  - apply (read_path P this h
             {| PlainObject.path := Some p; PlainObject.url := None;
                PlainObject.readable := None; PlainObject.base64 := None |} p);
      reflexivity.
  - intros n h'. apply read_times_rereadable. reflexivity.
Qed.

(** X8. Reading a URL source whose [fetch] returns an [ok] response with a
    body drains that body: the read fetches, then yields the body's chunks
    and ends as the body's iteration ends.  When [fetch] itself rejects, the
    read ends with that rejection and no chunk.  Either way the instance is
    unchanged, so every read fetches anew. *)
Theorem url_source_streams_response_body :
  forall (P : Platform) (this : InputFile) (h : list Event) (u : URL.t),
    consumed this = false -> fileData this = VURL u ->
    (forall e, fetch P h u = inl e ->
       asyncIterator P this h =
         {| this_after := this; emitted := [EvFetch u]; yielded := [];
            completion := inl e |}) /\
    (forall r body, fetch P h u = inr r ->
       Response.ok r = true -> Response.body r = Some body ->
       asyncIterator P this h =
         {| this_after := this; emitted := [EvFetch u; EvIterate body];
            yielded := fst (iterate P (h ++ [EvFetch u]) body);
            completion := drained (snd (iterate P (h ++ [EvFetch u]) body)) |}) /\
    (forall n h', instance_after (read_times P n this h') = this).
Proof.
  intros P this h u Hc Hd. repeat apply conj.
  - intros e Hf. rewrite (read_URL P this h u Hc Hd), Hf. reflexivity.
  - intros r body Hf Hok Hb. rewrite (read_URL P this h u Hc Hd), Hf, Hok, Hb.
    reflexivity.
  - intros n h'. apply read_times_rereadable. rewrite Hd. reflexivity.
Qed.

Lemma url_source_streams_response_body_witness :
  let u := {| URL.href := "https://example.com/data/x.bin"; URL.scheme := "https";
              URL.hostname := "example.com"; URL.pathname := "/data/x.bin" |} in
  let this := {| consumed := false; fileData := VURL u; name := Some "x.bin" |} in
  new_InputFile Flaky.platform (VUrl "https://example.com/data/x.bin") None =
    inr this /\
  asyncIterator Flaky.platform this [] =
    {| this_after := this; emitted := [EvFetch u; EvIterate (Sample.stream 9)];
       yielded := [Sample.chunk; Sample.chunk]; completion := inr tt |}.
Proof.
  intros u this. split; [reflexivity|].
  exact (proj1 (proj2 (url_source_streams_response_body Flaky.platform this [] u
                         eq_refl eq_refl))
           (Flaky.listing u) (Sample.stream 9) eq_refl eq_refl eq_refl).
Defined.

(** X9. A failure while reading a lazy source does not use the source up.
    When the producer throws (or its promise rejects), the read ends with
    that exception after the one call and yields nothing; when the iterable
    it returned breaks, the chunks delivered before are yielded and the read
    ends with the iterable's exception.  In both cases the instance is
    unchanged, and the next read calls the producer again and drains what
    that new call returns. *)
Theorem lazy_failure_can_be_retried :
  forall (P : Platform) (this : InputFile) (h : list Event) (f : Producer),
    consumed this = false -> fileData this = VFunction f ->
    (forall e, call P h f = inl e ->
       asyncIterator P this h =
         {| this_after := this; emitted := [EvCall f]; yielded := [];
            completion := inl e |}) /\
    (forall it e, call P h f = inr it ->
       snd (iterate P (h ++ [EvCall f]) it) = Some e ->
       asyncIterator P this h =
         {| this_after := this; emitted := [EvCall f; EvIterate it];
            yielded := fst (iterate P (h ++ [EvCall f]) it);
            completion := inl e |}) /\
    (forall h' it, call P h' f = inr it ->
       asyncIterator P (this_after (asyncIterator P this h)) h' =
         {| this_after := this; emitted := [EvCall f; EvIterate it];
            yielded := fst (iterate P (h' ++ [EvCall f]) it);
            completion := drained (snd (iterate P (h' ++ [EvCall f]) it)) |}).
Proof.
  intros P this h f Hc Hd. repeat apply conj.
  - intros e Hcall. rewrite (read_function P this h f Hc Hd), Hcall. reflexivity.
  - intros it e Hcall Hit.
    rewrite (read_function P this h f Hc Hd), Hcall, Hit. reflexivity.
  - intros h' it Hcall. rewrite read_rereadable by (rewrite Hd; reflexivity).
    rewrite (read_function P this h' f Hc Hd), Hcall. reflexivity.
Qed.

Lemma lazy_failure_can_be_retried_witness :
  let this := {| consumed := false; fileData := VFunction 4; name := None |} in
  asyncIterator Flaky.platform this [] =
    {| this_after := this; emitted := [EvCall 4]; yielded := [];
       completion := inl (HostError "not ready") |} /\
  asyncIterator Flaky.platform
    (this_after (asyncIterator Flaky.platform this [])) [EvCall 4] =
    {| this_after := this; emitted := [EvCall 4; EvIterate (Sample.stream 4)];
       yielded := [Sample.chunk; Sample.chunk]; completion := inr tt |}.
Proof.
  intros this.
  pose proof (lazy_failure_can_be_retried Flaky.platform this [] 4
                eq_refl eq_refl) as [H1 [_ H3]].
  split.
  - exact (H1 (HostError "not ready") eq_refl).
  - exact (H3 [EvCall 4] (Sample.stream 4) eq_refl).
Defined.



(** X11. A [Response] without a body is never used up: each of any number
    of reads ends with the same [ResponseError], none with the reuse error,
    and none touches the host or the instance. *)
Theorem null_body_response_is_never_consumed :
  forall (P : Platform) (this : InputFile) (r : Response.t)
         (n : nat) (h : list Event),
    consumed this = false -> fileData this = VResponse r ->
    Response.body r = None ->
    read_times P n this h =
      (repeat {| this_after := this; emitted := []; yielded := [];
                 completion := inl (new_ResponseError r) |} n,
       this, h).
Proof.
  intros P this r n h Hc Hd Hb.
  apply read_times_constant; try reflexivity.
  intros h0. rewrite (read_response P this h0 r Hc Hd), Hb. reflexivity.
Qed.

Lemma null_body_response_is_never_consumed_witness :
  let this := {| consumed := false; fileData := VResponse Sample.empty_response;
                 name := Some "none" |} in
  let run := {| this_after := this; emitted := []; yielded := [];
                completion := inl (new_ResponseError Sample.empty_response) |} in
  read_times Sample.platform 2 this [] = ([run; run], this, []).
Proof.
  intros this run.
  exact (null_body_response_is_never_consumed Sample.platform this
           Sample.empty_response 2 [] eq_refl eq_refl eq_refl).
Defined.

(** X12. A consumed instance stays silent: over any number of further reads
    every read stops at the guard with the reuse error, nothing is yielded,
    and neither the instance nor the history of host calls changes. *)
Theorem consumed_instance_stays_silent :
  forall (P : Platform) (this : InputFile) (n : nat) (h : list Event),
    consumed this = true ->
    read_times P n this h = (repeat (refused this) n, this, h).
Proof.
  intros P this n h Hc.
  apply read_times_constant; try reflexivity.
  intros h0. apply read_refused. exact Hc.
Qed.

Lemma consumed_instance_stays_silent_witness :
  let this := {| consumed := true; fileData := VIterable (Sample.stream 1);
                 name := None |} in
  read_times Sample.platform 3 this [EvIterate (Sample.stream 1)] =
    ([refused this; refused this; refused this], this,
     [EvIterate (Sample.stream 1)]).
Proof.
  intros this.
  exact (consumed_instance_stays_silent Sample.platform this 3
           [EvIterate (Sample.stream 1)] eq_refl).
Defined.





Lemma append_is_empty (a b : string) :
  (a ++ b)%string = "" <-> a = "" /\ b = "".
Proof.
  destruct a; simpl; split.
  - intros H. split; [reflexivity|exact H].
  - intros [_ H]. exact H.
  - discriminate.
  - intros [H _]. discriminate.
Qed.

(** X15. The message of a [ResponseError] is empty only when the response
    has a body, an empty status text and an empty [url] (as a synthetic
    response can have); for a response without a body, or one that carries
    its [url], the message is never empty. *)
Theorem ResponseError_message_is_empty_only_without_context :
  forall r : Response.t,
    message_of (new_ResponseError r) = "" <->
    is_some (Response.body r) = true /\ Response.statusText r = "" /\
    Response.url r = "".
Proof.
  intros r. unfold new_ResponseError, truthy. cbn [message_of].
  destruct (String.eqb_spec (Response.url r) "") as [Hu|Hu]; cbn [negb].
  - destruct (Response.body r); cbn [is_some]; split.
    + intros H. repeat split; assumption.
    + intros [_ [H _]]. exact H.
    + discriminate.
    + intros [H _]. discriminate.
  - split.
    + intros H. apply append_is_empty in H. destruct H as [_ H]. discriminate.
    + intros [_ [_ H]]. contradiction.
Qed.


